(** * Teen-Pregnancy community site: routing and view layer

    A shallow embedding of [core/views.py], [core/urls.py] and
    [teenpregnancy/urls.py].  The views are written against three
    collaborators (the ORM, the forms framework and the session based
    authentication); each is given a small executable model below so that
    the views can be run on concrete requests. *)

From Stdlib Require Import ZArith Ascii String List Bool Lia.
From stdpp Require Import base option list strings gmap.

Local Open Scope Z_scope.

(** ** Text: the part of Python [str] the views rely on *)

Module Text.

Definition is_upper (c : ascii) : bool :=
  let n := nat_of_ascii c in (Nat.leb 65 n && Nat.leb n 90)%bool.

Definition lower_char (c : ascii) : ascii :=
  if is_upper c then ascii_of_nat (nat_of_ascii c + 32) else c.

(** [str.lower], on ASCII letters. *)
Fixpoint lower (s : string) : string :=
  match s with
  | EmptyString => EmptyString
  | String c s' => String (lower_char c) (lower s')
  end.

(** [s.startswith(p)] *)
Fixpoint startswith (p s : string) : bool :=
  match p, s with
  | EmptyString, _ => true
  | String a p', String b s' => if Ascii.eqb a b then startswith p' s' else false
  | String _ _, EmptyString => false
  end.

(** [needle in hay] *)
Fixpoint contains (needle hay : string) : bool :=
  startswith needle hay ||
  match hay with
  | EmptyString => false
  | String _ hay' => contains needle hay'
  end.

(** The [__icontains] lookup: a case-insensitive containment test of the
    query in the column value. *)
Definition icontains (value query : string) : bool :=
  contains (lower query) (lower value).

(** [s.removeprefix(p)] when [s] starts with [p], [None] otherwise. *)
Fixpoint strip_prefix (p s : string) : option string :=
  match p, s with
  | EmptyString, _ => Some s
  | String a p', String b s' => if Ascii.eqb a b then strip_prefix p' s' else None
  | String _ _, EmptyString => None
  end.

Definition is_digit (c : ascii) : bool :=
  let n := nat_of_ascii c in (Nat.leb 48 n && Nat.leb n 57)%bool.

Definition digit_value (c : ascii) : Z := Z.of_nat (nat_of_ascii c) - 48.

(** The number that a run of decimal digits spells after the digits that
    spelled [acc]. *)
Fixpoint number_from (acc : Z) (s : string) : Z :=
  match s with
  | EmptyString => acc
  | String c s' => number_from (10 * acc + digit_value c) s'
  end.

(** [int(s)] for a run of decimal digits. *)
Definition number (s : string) : Z := number_from 0 s.

(** [c.isspace()], on ASCII: tab to carriage return, the four separators
    and the space. *)
Definition is_space (c : ascii) : bool :=
  let n := nat_of_ascii c in
  (Nat.leb 9 n && Nat.leb n 13) || (Nat.leb 28 n && Nat.leb n 32).

(** [s.lstrip()] *)
Fixpoint lstrip (s : string) : string :=
  match s with
  | EmptyString => EmptyString
  | String c s' => if is_space c then lstrip s' else s
  end.

(** [s.rstrip()] *)
Fixpoint rstrip (s : string) : string :=
  match s with
  | EmptyString => EmptyString
  | String c s' =>
      match rstrip s' with
      | EmptyString => if is_space c then EmptyString else String c EmptyString
      | t => String c t
      end
  end.

(** [s.strip()] *)
Definition strip (s : string) : string := rstrip (lstrip s).

(** Whether the null character occurs in [s]. *)
Fixpoint has_nul (s : string) : bool :=
  match s with
  | EmptyString => false
  | String c s' => Ascii.eqb c zero || has_nul s'
  end.

End Text.

(** ** Data model

    [core/models.py] is not part of the sources at hand; the entities are
    the ones the views read and write. *)

(** [request.user]: the anonymous user object or a reference to a row of
    the user table. *)
Inductive RequestUser :=
| AnonymousUser
| UserRef (uid : Z).

(** Modelled from the spec: the [Resource] model of [core/models.py], with
    a system-assigned [id], a [title] and a [content]. *)
Record Resource := mkResource {
  resource_pk : Z;
  resource_title : string;
  resource_content : string
}.

(** Modelled from the spec: the [ForumPost] model of [core/models.py]. *)
Record ForumPost := mkForumPost {
  post_pk : Z;
  post_title : string;
  post_content : string
}.

(** Modelled from the spec: the [Comment] model of [core/models.py].  Its
    [post] is a reference to the owning forum post and its [user] a
    reference to the user who wrote it, both by id. *)
Record Comment := mkComment {
  comment_pk : Z;
  comment_post : Z;
  comment_user : Z;
  comment_content : string
}.

(** The user table of the authentication collaborator. *)
Record User := mkUser {
  user_pk : Z;
  user_username : string;
  user_password : string;
  user_is_active : bool
}.

Record Store := mkStore {
  resources : list Resource;
  forum_posts : list ForumPost;
  comments : list Comment;
  users : list User
}.

(** The session of the client: [Anonymous --> Authenticated --> Anonymous]. *)
Inductive Session :=
| Anonymous
| Authenticated (uid : Z).

(** What a view can observe and change: the database and the session that
    came with the request. *)
Record World := mkWorld {
  db : Store;
  session : Session
}.

#[global] Instance RequestUser_eq_dec : EqDecision RequestUser.
Proof. solve_decision. Defined.
#[global] Instance Session_eq_dec : EqDecision Session.
Proof. solve_decision. Defined.

(** ** Exceptions and the view monad *)

Inductive ModelName := ResourceModel | ForumPostModel | CommentModel | UserModel.

Inductive Exception :=
| DoesNotExist (m : ModelName)
| MultipleObjectsReturned (m : ModelName)
| Http404
| TypeError
| ValueError.

Inductive Result (A : Type) :=
| Ok (a : A)
| Raise (e : Exception).
Arguments Ok {A} a.
Arguments Raise {A} e.

(** A computation that reads and writes the world and may raise. *)
Definition M (A : Type) : Type := World -> Result A * World.

Definition ret {A} (a : A) : M A := fun w => (Ok a, w).

Definition bind {A B} (m : M A) (k : A -> M B) : M B :=
  fun w =>
    match m w with
    | (Ok a, w') => k a w'
    | (Raise e, w') => (Raise e, w')
    end.

Definition raise {A} (e : Exception) : M A := fun w => (Raise e, w).

Definition lift {A} (r : Result A) : M A := fun w => (r, w).

Definition get_db : M Store := fun w => (Ok (db w), w).

Definition put_db (s : Store) : M unit :=
  fun w => (Ok tt, mkWorld s (session w)).

Definition get_session : M Session := fun w => (Ok (session w), w).

Definition put_session (s : Session) : M unit :=
  fun w => (Ok tt, mkWorld (db w) s).

Declare Scope view_scope.
Delimit Scope view_scope with view.
Notation "'let*' x ':=' m 'in' k" := (bind m (fun x => k))
  (at level 10, x name, m at level 100, k at level 200) : view_scope.
Notation "'let*' '_' ':=' m 'in' k" := (bind m (fun _ => k))
  (at level 10, m at level 100, k at level 200) : view_scope.

(** ** The request and the response *)

(** [QueryDict]: the submitted pairs in order; a key may occur repeatedly. *)
Definition QueryDict := list (string * string).

(** [QueryDict.get(key, default)]: the last value submitted for the key. *)
Fixpoint qd_get (d : QueryDict) (key : string) (default : option string)
  : option string :=
  match d with
  | [] => default
  | (k, v) :: d' =>
      if String.eqb k key then qd_get d' key (Some v) else qd_get d' key default
  end.

Record HttpRequest := mkRequest {
  method : string;
  GET : QueryDict;
  POST : QueryDict
}.

(** A form instance: unbound, or bound to submitted data with the outcome
    of its validation. *)
Record Form := mkForm {
  is_bound : bool;
  data : QueryDict;
  errors : list (string * string);
  cleaned_data : list (string * string)
}.

(** The values a template context can hold. *)
Inductive ContextValue :=
| VResources (rs : list Resource)
| VForumPosts (ps : list ForumPost)
| VResource (r : Resource)
| VForumPost (p : ForumPost)
| VComments (cs : list Comment)
| VForm (f : Form)
| VStr (s : string).

Definition Context := list (string * ContextValue).

Inductive HttpResponse :=
| render (template_name : string) (context : Context)
| redirect (to : string) (kwargs : list (string * Z)).

(** ** Forms collaborator *)

Module Forms.

Definition required_msg : string := "This field is required.".
Definition null_msg : string := "Null characters are not allowed.".
Definition taken_msg : string := "A user with that username already exists.".

(** The value of a text field: the submitted text, the empty text when
    the field was not submitted, with the surrounding whitespace stripped. *)
Definition to_python (d : QueryDict) (name : string) : string :=
  Text.strip (default EmptyString (qd_get d name None)).

(** Validation of one required text field: the stripped value must not
    be empty and must not hold a null character. *)
Definition clean_field (d : QueryDict) (name : string)
  : (string * string) + (string * string) :=
  match to_python d name with
  | EmptyString => inr (name, required_msg)
  | value =>
      if Text.has_nul value then inr (name, null_msg) else inl (name, value)
  end.

Fixpoint full_clean (fields : list string) (d : QueryDict)
  : list (string * string) * list (string * string) :=
  match fields with
  | [] => ([], [])
  | f :: fs =>
      let '(cleaned, errs) := full_clean fs d in
      match clean_field d f with
      | inl kv => (kv :: cleaned, errs)
      | inr e => (cleaned, e :: errs)
      end
  end.

(** [FormClass(data)] *)
Definition bound (fields : list string) (d : QueryDict) : Form :=
  let '(cleaned, errs) := full_clean fields d in
  mkForm true d errs cleaned.

(** [FormClass()] *)
Definition unbound : Form := mkForm false [] [] [].

(** [form.is_valid()] *)
Definition is_valid (f : Form) : bool :=
  is_bound f && match errors f with [] => true | _ => false end.

(** [form.cleaned_data.get(name)] *)
Fixpoint cleaned_get (cd : list (string * string)) (name : string)
  : option string :=
  match cd with
  | [] => None
  | (k, v) :: cd' => if String.eqb k name then Some v else cleaned_get cd' name
  end.

(** [form.cleaned_data[name]] with the empty string standing for a
    missing entry, which a valid form never has for a declared field. *)
Definition cleaned (f : Form) (name : string) : string :=
  match cleaned_get (cleaned_data f) name with
  | Some v => v
  | None => ""
  end.

(** Modelled from the spec: the form classes of [core/forms.py], each with
    its required text fields (title and content non-empty; a comment body;
    a user name and a password; a query). *)
Definition ResourceForm := bound ["title"; "content"].
Definition ForumPostForm := bound ["title"; "content"].
Definition CommentForm := bound ["content"].
Definition LoginForm := bound ["username"; "password"].
Definition SearchForm := bound ["query"].

(** Modelled from the spec: the registration form of [core/forms.py], a
    user name and a password, with the uniqueness of the user name checked
    against the names already [taken]. *)
Definition SignUpForm (taken : list string) (d : QueryDict) : Form :=
  let form := bound ["username"; "password"] d in
  match cleaned_get (cleaned_data form) "username" with
  | Some name =>
      if existsb (String.eqb name) taken
      then mkForm true d (("username", taken_msg) :: errors form)
                  (List.filter (fun kv => negb (String.eqb kv.1 "username"))
                               (cleaned_data form))
      else form
  | None => form
  end.

End Forms.

(** ** Persistence collaborator *)

Module ORM.

(** [Model.objects.get(id=pk)] over the rows of one table. *)
Definition get {A} (m : ModelName) (pk_of : A -> Z) (rows : list A) (pk : Z)
  : Result A :=
  match List.filter (fun r => pk_of r =? pk) rows with
  | [] => Raise (DoesNotExist m)
  | [r] => Ok r
  | _ :: _ :: _ => Raise (MultipleObjectsReturned m)
  end.

(** The key the database assigns to the next inserted row. *)
Definition next_pk {A} (pk_of : A -> Z) (rows : list A) : Z :=
  1 + fold_right Z.max 0 (map pk_of rows).

Definition save_resource (title content : string) : M unit :=
  (let* s := get_db in
   let r := mkResource (next_pk resource_pk (resources s)) title content in
   put_db (mkStore (resources s ++ [r]) (forum_posts s) (comments s) (users s)))%view.

Definition save_forum_post (title content : string) : M unit :=
  (let* s := get_db in
   let p := mkForumPost (next_pk post_pk (forum_posts s)) title content in
   put_db (mkStore (resources s) (forum_posts s ++ [p]) (comments s) (users s)))%view.

(** [comment.save()] for an instance built with [commit=False] and then
    given its [user] and [post]. *)
Definition save_comment (post : ForumPost) (user : Z)
    (content : string) : M unit :=
  (let* s := get_db in
   let c := mkComment (next_pk comment_pk (comments s)) (post_pk post) user content in
   put_db (mkStore (resources s) (forum_posts s) (comments s ++ [c]) (users s)))%view.

Definition save_user (username password : string) : M unit :=
  (let* s := get_db in
   let u := mkUser (next_pk user_pk (users s)) username password true in
   put_db (mkStore (resources s) (forum_posts s) (comments s) (users s ++ [u])))%view.

(** [post.comments.all()] *)
Definition comments_of (s : Store) (post : ForumPost) : list Comment :=
  List.filter (fun c => comment_post c =? post_pk post) (comments s).

End ORM.

(** ** Authentication collaborator *)

Module Auth.

(** [authenticate(request, username=..., password=...)]: the active user
    with that name when the password matches, [None] otherwise. *)
Definition authenticate (s : Store) (username password : string) : option User :=
  match List.filter (fun u => String.eqb (user_username u) username) (users s) with
  | u :: _ =>
      if String.eqb (user_password u) password && user_is_active u
      then Some u else None
  | [] => None
  end.

(** [login(request, user)] *)
Definition login (u : User) : M unit := put_session (Authenticated (user_pk u)).

(** [logout(request)] *)
Definition logout : M unit := put_session Anonymous.

(** The user object that goes with a session. *)
Definition user_of (s : Session) : RequestUser :=
  match s with
  | Anonymous => AnonymousUser
  | Authenticated uid => UserRef uid
  end.

(** [request.user], as the authentication middleware derives it from
    the session. *)
Definition request_user : M RequestUser :=
  (let* s := get_session in ret (user_of s))%view.

(** [instance.user = value] for a reference to a user: the anonymous user
    object is no user, and assigning it raises [ValueError]. *)
Definition assign_user (value : RequestUser) : M Z :=
  match value with
  | UserRef uid => ret uid
  | AnonymousUser => raise ValueError
  end.

End Auth.

(** ** [core/views.py]

    The module defines several names more than once; the definitions are
    numbered in the order in which the module executes them. *)

Module Views.

Local Open Scope view_scope.

Definition is_post (request : HttpRequest) : bool :=
  String.eqb (method request) "POST".

(** line 9 *)
Definition home (request : HttpRequest) : M HttpResponse :=
  let* s := get_db in
  ret (render "home.html"
         [("resources", VResources (resources s));
          ("forum_posts", VForumPosts (forum_posts s))]).

(** line 15 *)
Definition resource_detail (request : HttpRequest) (resource_id : Z)
  : M HttpResponse :=
  let* s := get_db in
  let* resource := lift (ORM.get ResourceModel resource_pk (resources s) resource_id) in
  ret (render "resource_detail.html" [("resource", VResource resource)]).

(** line 20 *)
Definition forum_post_detail_1 (request : HttpRequest) (post_id : Z)
  : M HttpResponse :=
  let* s := get_db in
  let* post := lift (ORM.get ForumPostModel post_pk (forum_posts s) post_id) in
  ret (render "forum_post_detail.html" [("post", VForumPost post)]).

(** line 25 *)
Definition submit_resource (request : HttpRequest) : M HttpResponse :=
  if is_post request then
    let form := Forms.ResourceForm (POST request) in
    if Forms.is_valid form then
      let* _ := ORM.save_resource (Forms.cleaned form "title")
                                  (Forms.cleaned form "content") in
      ret (redirect "home" [])
    else
      ret (render "submit_resource.html" [("form", VForm form)])
  else
    let form := Forms.unbound in
    ret (render "submit_resource.html" [("form", VForm form)]).

(** line 36 *)
Definition submit_forum_post (request : HttpRequest) : M HttpResponse :=
  if is_post request then
    let form := Forms.ForumPostForm (POST request) in
    if Forms.is_valid form then
      let* _ := ORM.save_forum_post (Forms.cleaned form "title")
                                    (Forms.cleaned form "content") in
      ret (redirect "home" [])
    else
      ret (render "submit_forum_post.html" [("form", VForm form)])
  else
    let form := Forms.unbound in
    ret (render "submit_forum_post.html" [("form", VForm form)]).

(** line 46 *)
Definition forum_post_detail_2 (request : HttpRequest) (post_id : Z)
  : M HttpResponse :=
  let* s := get_db in
  let* post := lift (ORM.get ForumPostModel post_pk (forum_posts s) post_id) in
  let comments := ORM.comments_of s post in
  let detail comment_form :=
    render "forum_post_detail.html"
      [("post", VForumPost post);
       ("comments", VComments comments);
       ("comment_form", VForm comment_form)] in
  if is_post request then
    let comment_form := Forms.CommentForm (POST request) in
    if Forms.is_valid comment_form then
      let* user := Auth.request_user in
      let* uid := Auth.assign_user user in
      let* _ := ORM.save_comment post uid (Forms.cleaned comment_form "content") in
      ret (redirect "forum_post_detail" [("post_id", post_pk post)])
    else
      ret (detail comment_form)
  else
    let comment_form := Forms.unbound in
    ret (detail comment_form).

(** lines 66, 93 and 126: three identical definitions *)
Definition signup (request : HttpRequest) : M HttpResponse :=
  if is_post request then
    let* s := get_db in
    let form := Forms.SignUpForm (map user_username (users s)) (POST request) in
    if Forms.is_valid form then
      let* _ := ORM.save_user (Forms.cleaned form "username")
                              (Forms.cleaned form "password") in
      ret (redirect "login" [])
    else
      ret (render "signup.html" [("form", VForm form)])
  else
    let form := Forms.unbound in
    ret (render "signup.html" [("form", VForm form)]).

(** line 76 *)
Definition search_1 (request : HttpRequest) : M HttpResponse :=
  let* s := get_db in
  let form := Forms.SearchForm (GET request) in
  let '(resources, forum_posts) :=
    if Forms.is_valid form then
      let query := Forms.cleaned form "query" in
      (List.filter (fun r => Text.icontains (resource_title r) query
                             || Text.icontains (resource_content r) query)
                   (resources s),
       List.filter (fun p => Text.icontains (post_title p) query
                             || Text.icontains (post_content p) query)
                   (forum_posts s))
    else ([], []) in
  ret (render "search_results.html"
         [("form", VForm form);
          ("resources", VResources resources);
          ("forum_posts", VForumPosts forum_posts)]).

(** lines 104 and 137: two identical definitions *)
Definition login_view (request : HttpRequest) : M HttpResponse :=
  if is_post request then
    let form := Forms.LoginForm (POST request) in
    if Forms.is_valid form then
      let username := Forms.cleaned form "username" in
      let password := Forms.cleaned form "password" in
      let* s := get_db in
      match Auth.authenticate s username password with
      | Some user =>
          let* _ := Auth.login user in
          ret (redirect "home" [])
      | None => ret (render "login.html" [("form", VForm form)])
      end
    else
      ret (render "login.html" [("form", VForm form)])
  else
    let form := Forms.unbound in
    ret (render "login.html" [("form", VForm form)]).

(** lines 121 and 154: two identical definitions *)
Definition logout_view (request : HttpRequest) : M HttpResponse :=
  let* _ := Auth.logout in
  ret (redirect "home" []).

(** line 160 *)
Definition search_2 (request : HttpRequest) : M HttpResponse :=
  let query := default "" (qd_get (GET request) "q" (Some "")) in
  let* s := get_db in
  let resources :=
    List.filter (fun r => Text.icontains (resource_title r) query) (resources s) in
  let forum_posts :=
    List.filter (fun p => Text.icontains (post_title p) query) (forum_posts s) in
  ret (render "search_results.html"
         [("resources", VResources resources);
          ("forum_posts", VForumPosts forum_posts);
          ("query", VStr query)]).

(** One constructor for each [def] statement of the module, by name and
    line. *)
Inductive Def :=
| def_home_9
| def_resource_detail_15
| def_forum_post_detail_20
| def_submit_resource_25
| def_submit_forum_post_36
| def_forum_post_detail_46
| def_signup_66
| def_search_76
| def_signup_93
| def_login_view_104
| def_logout_view_121
| def_signup_126
| def_login_view_137
| def_logout_view_154
| def_search_160.

#[global] Instance Def_eq_dec : EqDecision Def.
Proof. solve_decision. Defined.

(** The name a [def] statement binds. *)
Definition def_name (d : Def) : string :=
  match d with
  | def_home_9 => "home"
  | def_resource_detail_15 => "resource_detail"
  | def_forum_post_detail_20 | def_forum_post_detail_46 => "forum_post_detail"
  | def_submit_resource_25 => "submit_resource"
  | def_submit_forum_post_36 => "submit_forum_post"
  | def_signup_66 | def_signup_93 | def_signup_126 => "signup"
  | def_search_76 | def_search_160 => "search"
  | def_login_view_104 | def_login_view_137 => "login_view"
  | def_logout_view_121 | def_logout_view_154 => "logout_view"
  end.

(** The [def] statements in the order in which the module runs them. *)
Definition statements : list (string * Def) :=
  [("home", def_home_9);
   ("resource_detail", def_resource_detail_15);
   ("forum_post_detail", def_forum_post_detail_20);
   ("submit_resource", def_submit_resource_25);
   ("submit_forum_post", def_submit_forum_post_36);
   ("forum_post_detail", def_forum_post_detail_46);
   ("signup", def_signup_66);
   ("search", def_search_76);
   ("signup", def_signup_93);
   ("login_view", def_login_view_104);
   ("logout_view", def_logout_view_121);
   ("signup", def_signup_126);
   ("login_view", def_login_view_137);
   ("logout_view", def_logout_view_154);
   ("search", def_search_160)].

(** Running a [def] statement binds the name in the module's namespace,
    replacing what the name was bound to. *)
Definition exec_def (ns : gmap string Def) (st : string * Def) : gmap string Def :=
  <[st.1 := st.2]> ns.

Definition exec_module (sts : list (string * Def)) : gmap string Def :=
  foldl exec_def ∅ sts.

(** The namespace of the imported module: [views.<name>] is a lookup. *)
Definition namespace : gmap string Def := exec_module statements.

(** The keyword argument a URL pattern captured. *)
Fixpoint kwarg (kwargs : list (string * Z)) (name : string) : option Z :=
  match kwargs with
  | [] => None
  | (k, v) :: kwargs' => if String.eqb k name then Some v else kwarg kwargs' name
  end.

Definition with_kwarg (kwargs : list (string * Z)) (name : string)
    (body : Z -> M HttpResponse) : M HttpResponse :=
  match kwarg kwargs name with
  | Some v => body v
  | None => raise TypeError
  end.

(** Calling the function object a [def] statement created. *)
Definition call (d : Def) (request : HttpRequest) (kwargs : list (string * Z))
  : M HttpResponse :=
  match d with
  | def_home_9 => home request
  | def_resource_detail_15 => with_kwarg kwargs "resource_id" (resource_detail request)
  | def_forum_post_detail_20 => with_kwarg kwargs "post_id" (forum_post_detail_1 request)
  | def_submit_resource_25 => submit_resource request
  | def_submit_forum_post_36 => submit_forum_post request
  | def_forum_post_detail_46 => with_kwarg kwargs "post_id" (forum_post_detail_2 request)
  | def_signup_66 | def_signup_93 | def_signup_126 => signup request
  | def_search_76 => search_1 request
  | def_login_view_104 | def_login_view_137 => login_view request
  | def_logout_view_121 | def_logout_view_154 => logout_view request
  | def_search_160 => search_2 request
  end.

End Views.

(** ** URL configuration and dispatch *)

Module Urls.

(** What a route can dispatch to: a function of [core/views.py], one of
    the class based views of [django.contrib.auth.views], or the admin
    site. *)
Inductive Callable :=
| view (d : Views.Def)
| auth_LoginView (template_name : option string)
| auth_LogoutView
| admin_site_urls.

#[global] Instance Callable_eq_dec : EqDecision Callable.
Proof. solve_decision. Defined.

(** A route of [path()]: literal text and [<int:name>] converters. *)
Inductive Piece :=
| lit (text : string)
| int (name : string).

Definition Route := list Piece.

#[warnings="-register-all"] Inductive URLPattern :=
| path (route : Route) (callback : Callable) (name : string)
| include (route : Route) (urlconf : list URLPattern)
| mount (route : Route) (app : Callable).

Record ResolverMatch := mkMatch {
  func : Callable;
  kwargs : list (string * Z);
  url_name : string
}.

(** The regular expression of a route at the start of a path: the text
    each converter captured and the rest of the path.  [<int:name>] is
    [[0-9]+], as many digits as the rest of the route allows, longest
    first. *)
Fixpoint regex_match (r : Route) (s : string)
  : option (list (string * string) * string) :=
  match r with
  | [] => Some ([], s)
  | lit text :: r' =>
      match Text.strip_prefix text s with
      | Some s' => regex_match r' s'
      | None => None
      end
  | int name :: r' =>
      let continue := regex_match r' in
      match
        (fix digits (s : string) {struct s}
           : option (string * (list (string * string) * string)) :=
           match s with
           | EmptyString => None
           | String c s' =>
               if Text.is_digit c then
                 match digits s' with
                 | Some (text, m) => Some (String c text, m)
                 | None =>
                     match continue s' with
                     | Some m => Some (String c EmptyString, m)
                     | None => None
                     end
                 end
               else None
           end) s
      with
      | Some (text, (groups, rest)) => Some ((name, text) :: groups, rest)
      | None => None
      end
  end.

(** The longest run of digits that [int()] converts. *)
Definition int_max_str_digits : nat := 4300.

(** [IntConverter.to_python]: [int(text)], which refuses a text of more
    than [int_max_str_digits] digits with [ValueError]. *)
Definition int_to_python (text : string) : option Z :=
  if Nat.leb (String.length text) int_max_str_digits
  then Some (Text.number text) else None.

Fixpoint to_python_all (groups : list (string * string)) : option (list (string * Z)) :=
  match groups with
  | [] => Some []
  | (name, text) :: groups' =>
      match int_to_python text, to_python_all groups' with
      | Some v, Some kw => Some ((name, v) :: kw)
      | _, _ => None
      end
  end.

(** Matching a route at the start of a path: the regular expression, then
    the converters; a converter that refuses its text makes the route not
    match. *)
Definition match_route (r : Route) (s : string) : option (list (string * Z) * string) :=
  match regex_match r s with
  | Some (groups, rest) =>
      match to_python_all groups with
      | Some kw => Some (kw, rest)
      | None => None
      end
  | None => None
  end.

(** The resolver: the patterns are tried in the order of the list and the
    first one that matches the whole path is the answer. *)
Fixpoint resolve_pattern (p : URLPattern) (s : string) : option ResolverMatch :=
  match p with
  | path r callback name =>
      match match_route r s with
      | Some (kw, EmptyString) => Some (mkMatch callback kw name)
      | _ => None
      end
  | include r urlconf =>
      match match_route r s with
      | Some (kw, rest) =>
          (fix first (ps : list URLPattern) : option ResolverMatch :=
             match ps with
             | [] => None
             | p' :: ps' =>
                 match resolve_pattern p' rest with
                 | Some m => Some (mkMatch (func m) (kw ++ kwargs m) (url_name m))
                 | None => first ps'
                 end
             end) urlconf
      | None => None
      end
  | mount r app =>
      match match_route r s with
      | Some (kw, _) => Some (mkMatch app kw "")
      | None => None
      end
  end.

Fixpoint resolve (ps : list URLPattern) (s : string) : option ResolverMatch :=
  match ps with
  | [] => None
  | p :: ps' =>
      match resolve_pattern p s with
      | Some m => Some m
      | None => resolve ps' s
      end
  end.

(** [core/urls.py]: the list is built when the module is imported, and
    every [views.<name>] in it is a lookup in the namespace of
    [core/views.py]. *)
Definition core_urlpatterns : option (list URLPattern) :=
  home ← Views.namespace !! "home";
  resource_detail ← Views.namespace !! "resource_detail";
  forum_post_detail ← Views.namespace !! "forum_post_detail";
  submit_resource ← Views.namespace !! "submit_resource";
  submit_forum_post ← Views.namespace !! "submit_forum_post";
  search ← Views.namespace !! "search";
  signup ← Views.namespace !! "signup";
  login_view ← Views.namespace !! "login_view";
  logout_view ← Views.namespace !! "logout_view";
  Some
    [path [] (view home) "home";
     path [lit "resource/"; int "resource_id"; lit "/"] (view resource_detail)
          "resource_detail";
     path [lit "forum/"; int "post_id"; lit "/"] (view forum_post_detail)
          "forum_post_detail";
     path [lit "submit/resource/"] (view submit_resource) "submit_resource";
     path [lit "submit/forum/"] (view submit_forum_post) "submit_forum_post";
     path [lit "login/"] (auth_LoginView None) "login";
     path [lit "logout/"] auth_LogoutView "logout";
     path [lit "login/"] (auth_LoginView (Some "login.html")) "login";
     path [lit "search/"] (view search) "search";
     path [lit "signup/"] (view signup) "signup";
     path [lit "login/"] (view login_view) "login";
     path [lit "logout/"] (view logout_view) "logout"].

(** [teenpregnancy/urls.py] *)
Definition urlpatterns : option (list URLPattern) :=
  core ← core_urlpatterns;
  Some [mount [lit "admin/"] admin_site_urls;
        include [] core].

(** Resolving the path of a request: the leading slash is the root. *)
Definition resolve_path (path_info : string) : option ResolverMatch :=
  match Text.strip_prefix "/" path_info, urlpatterns with
  | Some s, Some ps => resolve ps s
  | _, _ => None
  end.

End Urls.

(** ** The request handler around the views *)

Module Handler.

(** What the client gets back. *)
Inductive Served :=
| response (r : HttpResponse)
| not_found
| server_error (e : Exception)
| external (c : Urls.Callable).

(** The conversion of an exception that escapes a view: [Http404]
    becomes the 404 page, everything else a server error. *)
Definition response_for_exception (e : Exception) : Served :=
  match e with
  | Http404 => not_found
  | _ => server_error e
  end.

Definition status_code (s : Served) : option Z :=
  match s with
  | response (render _ _) => Some 200
  | response (redirect _ _) => Some 302
  | not_found => Some 404
  | server_error _ => Some 500
  | external _ => None
  end.

(** Running a view under the handler. *)
Definition serve (v : M HttpResponse) (w : World) : Served * World :=
  match v w with
  | (Ok r, w') => (response r, w')
  | (Raise e, w') => (response_for_exception e, w')
  end.

Definition get_response (path_info : string) (request : HttpRequest) (w : World)
  : Served * World :=
  match Urls.resolve_path path_info with
  | None => (not_found, w)
  | Some m =>
      match Urls.func m with
      | Urls.view d => serve (Views.call d request (Urls.kwargs m)) w
      | c => (external c, w)
      end
  end.

End Handler.

(** * Vocabulary of the properties *)

(** Equality of two texts up to the case of their letters. *)
Definition same_ignoring_case (a b : string) : Prop := Text.lower a = Text.lower b.

(** The spec's notion: some stretch of [value] is the query, up to the
    case of the letters. *)
Definition contains_ignoring_case (value query : string) : Prop :=
  exists pre mid suf,
    value = pre +:+ mid +:+ suf /\ same_ignoring_case mid query.



(** The store after one resource was added to it. *)
Definition with_new_resource (s : Store) (title content : string) : Store :=
  mkStore (resources s ++ [mkResource (ORM.next_pk resource_pk (resources s)) title content])
          (forum_posts s) (comments s) (users s).

(** The store after one forum post was added to it. *)
Definition with_new_forum_post (s : Store) (title content : string) : Store :=
  mkStore (resources s)
          (forum_posts s ++ [mkForumPost (ORM.next_pk post_pk (forum_posts s)) title content])
          (comments s) (users s).

(** The store after one comment was added to it. *)
Definition with_new_comment (s : Store) (post : ForumPost) (user : Z)
    (content : string) : Store :=
  mkStore (resources s) (forum_posts s)
          (comments s ++ [mkComment (ORM.next_pk comment_pk (comments s))
                                    (post_pk post) user content])
          (users s).


(** What a pattern can answer with: the callback and the name of every
    registration in it. *)
Fixpoint endpoints (p : Urls.URLPattern) : list (Urls.Callable * string) :=
  match p with
  | Urls.path _ callback name => [(callback, name)]
  | Urls.include _ urlconf =>
      (fix all (ps : list Urls.URLPattern) : list (Urls.Callable * string) :=
         match ps with
         | [] => []
         | p' :: ps' => endpoints p' ++ all ps'
         end) urlconf
  | Urls.mount _ app => [(app, EmptyString)]
  end.

Definition endpoints_of (ps : list Urls.URLPattern) : list (Urls.Callable * string) :=
  flat_map endpoints ps.

(** [core/urls.py] once the lookups in [views] are done. *)
Definition core_urlconf : list Urls.URLPattern :=
  [Urls.path [] (Urls.view Views.def_home_9) "home";
   Urls.path [Urls.lit "resource/"; Urls.int "resource_id"; Urls.lit "/"]
     (Urls.view Views.def_resource_detail_15) "resource_detail";
   Urls.path [Urls.lit "forum/"; Urls.int "post_id"; Urls.lit "/"]
     (Urls.view Views.def_forum_post_detail_46) "forum_post_detail";
   Urls.path [Urls.lit "submit/resource/"]
     (Urls.view Views.def_submit_resource_25) "submit_resource";
   Urls.path [Urls.lit "submit/forum/"]
     (Urls.view Views.def_submit_forum_post_36) "submit_forum_post";
   Urls.path [Urls.lit "login/"] (Urls.auth_LoginView None) "login";
   Urls.path [Urls.lit "logout/"] Urls.auth_LogoutView "logout";
   Urls.path [Urls.lit "login/"] (Urls.auth_LoginView (Some "login.html")) "login";
   Urls.path [Urls.lit "search/"] (Urls.view Views.def_search_160) "search";
   Urls.path [Urls.lit "signup/"] (Urls.view Views.def_signup_126) "signup";
   Urls.path [Urls.lit "login/"] (Urls.view Views.def_login_view_137) "login";
   Urls.path [Urls.lit "logout/"] (Urls.view Views.def_logout_view_154) "logout"].

Definition root_urlconf : list Urls.URLPattern :=
  [Urls.mount [Urls.lit "admin/"] Urls.admin_site_urls;
   Urls.include [] core_urlconf].

(** [core_urlconf] without the registrations that repeat an earlier route. *)
Definition core_urlconf_first_only : list Urls.URLPattern :=
  [Urls.path [] (Urls.view Views.def_home_9) "home";
   Urls.path [Urls.lit "resource/"; Urls.int "resource_id"; Urls.lit "/"]
     (Urls.view Views.def_resource_detail_15) "resource_detail";
   Urls.path [Urls.lit "forum/"; Urls.int "post_id"; Urls.lit "/"]
     (Urls.view Views.def_forum_post_detail_46) "forum_post_detail";
   Urls.path [Urls.lit "submit/resource/"]
     (Urls.view Views.def_submit_resource_25) "submit_resource";
   Urls.path [Urls.lit "submit/forum/"]
     (Urls.view Views.def_submit_forum_post_36) "submit_forum_post";
   Urls.path [Urls.lit "login/"] (Urls.auth_LoginView None) "login";
   Urls.path [Urls.lit "logout/"] Urls.auth_LogoutView "logout";
   Urls.path [Urls.lit "search/"] (Urls.view Views.def_search_160) "search";
   Urls.path [Urls.lit "signup/"] (Urls.view Views.def_signup_126) "signup"].

(** A sample store: one resource, one forum post, one user. *)
Definition sample_store : Store :=
  mkStore [mkResource 1 "Nutrition Guide" "Eat well."]
          [mkForumPost 1 "Introductions" "Say hello."]
          []
          [mkUser 7 "amina" "s3cret" true].

Definition sample_world (s : Session) : World := mkWorld sample_store s.

(** Sample requests. *)
Definition resource_submission : HttpRequest :=
  mkRequest "POST" [] [("title", "Iron"); ("content", "Leafy greens.")].

Definition comment_submission : HttpRequest :=
  mkRequest "POST" [] [("content", "Welcome!")].

Definition nutrition_search : HttpRequest :=
  mkRequest "GET" [("q", "nutrition")] [].

Definition plain_get : HttpRequest := mkRequest "GET" [] [].




Definition new_signup : HttpRequest :=
  mkRequest "POST" [] [("username", "bola"); ("password", "0kuta")].

(** The store after one user was added to it. *)
Definition with_new_user (s : Store) (username password : string) : Store :=
  mkStore (resources s) (forum_posts s) (comments s)
          (users s ++ [mkUser (ORM.next_pk user_pk (users s)) username password true]).

(** Every table has a primary key: no two rows of a table share an id. *)
Definition unique_pks (s : Store) : Prop :=
  List.NoDup (map resource_pk (resources s))
  /\ List.NoDup (map post_pk (forum_posts s))
  /\ List.NoDup (map comment_pk (comments s))
  /\ List.NoDup (map user_pk (users s)).

(** The names of the arguments a route captures. *)
Fixpoint route_params (r : Urls.Route) : list string :=
  match r with
  | [] => []
  | Urls.lit _ :: r' => route_params r'
  | Urls.int name :: r' => name :: route_params r'
  end.

(** The registrations of a pattern: callback, name and the names of the
    arguments captured on the way to it. *)
Fixpoint registrations (p : Urls.URLPattern)
  : list (Urls.Callable * string * list string) :=
  match p with
  | Urls.path r callback name => [(callback, name, route_params r)]
  | Urls.include r urlconf =>
      (fix all (ps : list Urls.URLPattern) : list (Urls.Callable * string * list string) :=
         match ps with
         | [] => []
         | p' :: ps' =>
             map (fun reg => (reg.1, route_params r ++ reg.2)) (registrations p')
             ++ all ps'
         end) urlconf
  | Urls.mount r app => [(app, EmptyString, route_params r)]
  end.

Definition registrations_of (ps : list Urls.URLPattern)
  : list (Urls.Callable * string * list string) :=
  flat_map registrations ps.

(** A text made of decimal digits only. *)
Fixpoint all_digits (s : string) : bool :=
  match s with
  | EmptyString => true
  | String c s' => Text.is_digit c && all_digits s'
  end.

(** The changes a view can make, one line for each view that writes. *)
Inductive Effect (d : Views.Def) (request : HttpRequest) (w : World) : World -> Prop :=
| effect_none : Effect d request w w
| effect_resource title content :
    d = Views.def_submit_resource_25 -> Views.is_post request = true ->
    Effect d request w (mkWorld (with_new_resource (db w) title content) (session w))
| effect_forum_post title content :
    d = Views.def_submit_forum_post_36 -> Views.is_post request = true ->
    Effect d request w (mkWorld (with_new_forum_post (db w) title content) (session w))
| effect_comment post uid body :
    d = Views.def_forum_post_detail_46 -> Views.is_post request = true ->
    In post (forum_posts (db w)) -> session w = Authenticated uid ->
    Effect d request w
      (mkWorld (with_new_comment (db w) post uid body) (session w))
| effect_user username password :
    Views.def_name d = "signup" -> Views.is_post request = true ->
    Effect d request w (mkWorld (with_new_user (db w) username password) (session w))
| effect_login user :
    Views.def_name d = "login_view" -> Views.is_post request = true ->
    In user (users (db w)) ->
    Effect d request w (mkWorld (db w) (Authenticated (user_pk user)))
| effect_logout :
    Views.def_name d = "logout_view" ->
    Effect d request w (mkWorld (db w) Anonymous).

(** Every comment belongs to a stored forum post. *)
Definition comments_have_posts (s : Store) : Prop :=
  forall c, In c (comments s) ->
    exists p, In p (forum_posts s) /\ post_pk p = comment_post c.

(** A text that does not go on with a digit. *)
Definition no_digit_ahead (s : string) : Prop :=
  match s with
  | EmptyString => True
  | String c _ => Text.is_digit c = false
  end.

(** * Properties *)

(** ** Text *)

Section TextFacts.

Import Text.

Lemma append_nil (s : string) : EmptyString +:+ s = s.
Proof. reflexivity. Qed.

Lemma append_cons (c : ascii) (a b : string) :
  String c a +:+ b = String c (a +:+ b).
Proof. reflexivity. Qed.

Lemma startswith_spec (p s : string) :
  startswith p s = true <-> exists suf, s = p +:+ suf.
Proof.
  revert s; induction p as [|a p IH]; intros s; simpl.
  - split; [intros _; exists s; reflexivity | reflexivity].
  - destruct s as [|b s].
    + split; [discriminate | intros [suf H]; discriminate].
    + destruct (Ascii.eqb a b) eqn:E.
      * apply Ascii.eqb_eq in E; subst b. rewrite IH.
        split; intros [suf H]; exists suf;
          rewrite append_cons in *; congruence.
      * apply Ascii.eqb_neq in E.
        split; [discriminate|].
        intros [suf H]; rewrite append_cons in H; congruence.
Qed.

Lemma contains_spec (needle hay : string) :
  contains needle hay = true <-> exists pre suf, hay = pre +:+ needle +:+ suf.
Proof.
  induction hay as [|c hay IH]; simpl.
  - rewrite orb_false_r, startswith_spec. split.
    + intros [suf H]. exists EmptyString, suf. exact H.
    + intros (pre & suf & H). destruct pre; [|discriminate].
      exists suf. exact H.
  - rewrite orb_true_iff, startswith_spec, IH. split.
    + intros [[suf H] | (pre & suf & H)].
      * exists EmptyString, suf. exact H.
      * exists (String c pre), suf. rewrite append_cons. congruence.
    + intros (pre & suf & H). destruct pre as [|c' pre].
      * left. exists suf. exact H.
      * right. exists pre, suf. rewrite append_cons in H. congruence.
Qed.

Lemma contains_empty (hay : string) : contains EmptyString hay = true.
Proof. destruct hay; reflexivity. Qed.

Lemma lower_app (a b : string) : lower (a +:+ b) = lower a +:+ lower b.
Proof.
  induction a as [|c a IH]; [reflexivity|].
  rewrite append_cons. simpl. now rewrite IH.
Qed.

Lemma lower_split (t a b : string) :
  lower t = a +:+ b ->
  exists t1 t2, t = t1 +:+ t2 /\ lower t1 = a /\ lower t2 = b.
Proof.
  revert t; induction a as [|c a IH]; intros t H.
  - exists EmptyString, t. auto.
  - rewrite append_cons in H.
    destruct t as [|d t]; [discriminate|]. simpl in H.
    injection H as Hc Ht. destruct (IH t Ht) as (t1 & t2 & -> & H1 & H2).
    exists (String d t1), t2. simpl. rewrite H1, Hc. auto.
Qed.

Lemma icontains_spec (value query : string) :
  icontains value query = true <-> contains_ignoring_case value query.
Proof.
  unfold icontains, contains_ignoring_case, same_ignoring_case.
  rewrite contains_spec. split.
  - intros (pre & suf & H).
    destruct (lower_split _ _ _ H) as (t1 & t' & -> & H1 & H').
    destruct (lower_split _ _ _ H') as (t2 & t3 & -> & H2 & H3).
    exists t1, t2, t3. auto.
  - intros (pre & mid & suf & -> & H).
    exists (lower pre), (lower suf). now rewrite !lower_app, H.
Qed.

Lemma icontains_empty_query (value : string) : icontains value EmptyString = true.
Proof. unfold icontains. simpl. apply contains_empty. Qed.

End TextFacts.

(** ** The collaborators *)

Section OrmFacts.

Context {A : Type} (m : ModelName) (pk_of : A -> Z).

Lemma get_ok (rows : list A) (pk : Z) (r : A) :
  ORM.get m pk_of rows pk = Ok r -> In r rows /\ pk_of r = pk.
Proof.
  unfold ORM.get. intros H.
  destruct (List.filter _ rows) as [|x [|y l]] eqn:E; try discriminate.
  injection H as ->.
  assert (Hin : In r (List.filter (fun r => pk_of r =? pk) rows))
    by (rewrite E; left; reflexivity).
  apply filter_In in Hin. destruct Hin as [Hin Hpk].
  split; [exact Hin | lia].
Qed.

Lemma filter_none (rows : list A) (pk : Z) :
  (forall r, In r rows -> pk_of r <> pk) ->
  List.filter (fun r => pk_of r =? pk) rows = [].
Proof.
  induction rows as [|x rows IH]; intros H; simpl; [reflexivity|].
  destruct (Z.eqb_spec (pk_of x) pk) as [E|E].
  - exfalso. apply (H x); [left; reflexivity | exact E].
  - apply IH. intros r Hr. apply H. right. exact Hr.
Qed.

Lemma get_missing (rows : list A) (pk : Z) :
  (forall r, In r rows -> pk_of r <> pk) ->
  ORM.get m pk_of rows pk = Raise (DoesNotExist m).
Proof. intros H. unfold ORM.get. now rewrite filter_none. Qed.

(** With a primary key, the row with a given id is the one [get] finds. *)
Lemma get_present (rows : list A) (r : A) :
  List.NoDup (map pk_of rows) -> In r rows ->
  ORM.get m pk_of rows (pk_of r) = Ok r.
Proof.
  unfold ORM.get.
  induction rows as [|x rows IH]; intros Hnd Hin; [destruct Hin|].
  simpl in Hnd. apply List.NoDup_cons_iff in Hnd. destruct Hnd as [Hx Hnd].
  simpl. destruct Hin as [->|Hin].
  - rewrite Z.eqb_refl. rewrite filter_none; [reflexivity|].
    intros r' Hr' E. apply Hx. rewrite <- E. now apply in_map.
  - destruct (Z.eqb_spec (pk_of x) (pk_of r)) as [E|E].
    + exfalso. apply Hx. rewrite E. now apply in_map.
    + now apply IH.
Qed.

Lemma fold_max_ge (l : list Z) (z : Z) :
  In z l -> z <= fold_right Z.max 0 l.
Proof.
  induction l as [|x l IH]; intros H; [destruct H|].
  simpl. destruct H as [->|H]; [lia|]. specialize (IH H). lia.
Qed.

(** The key of a new row is not the key of any row already there. *)
Lemma next_pk_fresh (rows : list A) (r : A) :
  In r rows -> pk_of r < ORM.next_pk pk_of rows.
Proof.
  intros H. unfold ORM.next_pk.
  pose proof (fold_max_ge (map pk_of rows) (pk_of r) (in_map _ _ _ H)). lia.
Qed.

End OrmFacts.

Lemma filter_sublist {A} (f : A -> bool) (l : list A) :
  sublist (List.filter f l) l.
Proof.
  induction l as [|x l IH]; simpl; [constructor|].
  destruct (f x); now constructor.
Qed.

Lemma filter_all {A} (f : A -> bool) (l : list A) :
  (forall x, In x l -> f x = true) -> List.filter f l = l.
Proof.
  induction l as [|x l IH]; intros H; simpl; [reflexivity|].
  rewrite (H x (or_introl eq_refl)). f_equal. apply IH.
  intros y Hy. apply H. now right.
Qed.

Lemma filter_nothing {A} (f : A -> bool) (l : list A) :
  (forall x, In x l -> f x = false) -> List.filter f l = [].
Proof.
  induction l as [|x l IH]; intros H; simpl; [reflexivity|].
  rewrite (H x (or_introl eq_refl)). apply IH.
  intros y Hy. apply H. now right.
Qed.

(** [get] with a default is [get] without one, the default filling in for
    an absent key. *)
Lemma qd_get_default (d : QueryDict) (key : string) (dflt : option string) :
  qd_get d key dflt =
  match qd_get d key None with
  | Some v => Some v
  | None => dflt
  end.
Proof.
  revert dflt. induction d as [|[k v] d IH]; intros dflt; simpl; [reflexivity|].
  destruct (String.eqb k key).
  - rewrite (IH (Some v)). now destruct (qd_get d key None).
  - apply IH.
Qed.

(** ** Detail views *)

(** For an id that is in the table, [resource_detail] renders that row. *)
Lemma resource_detail_present (request : HttpRequest) (w : World) (r : Resource) :
  List.NoDup (map resource_pk (resources (db w))) ->
  In r (resources (db w)) ->
  Handler.serve (Views.resource_detail request (resource_pk r)) w =
  (Handler.response (render "resource_detail.html" [("resource", VResource r)]), w).
Proof.
  intros Hnd Hin. unfold Handler.serve, Views.resource_detail, bind, get_db, lift, ret.
  now rewrite (get_present ResourceModel resource_pk _ _ Hnd Hin).
Qed.

(** For an id that is not in the table, the lookup of [resource_detail]
    raises and the client gets a server error. *)
Lemma resource_detail_missing (request : HttpRequest) (w : World) (resource_id : Z) :
  (forall r, In r (resources (db w)) -> resource_pk r <> resource_id) ->
  Handler.serve (Views.resource_detail request resource_id) w =
  (Handler.server_error (DoesNotExist ResourceModel), w).
Proof.
  intros H. unfold Handler.serve, Views.resource_detail, bind, get_db, lift.
  now rewrite (get_missing ResourceModel resource_pk _ _ H).
Qed.

(** The same for the forum post of [forum_post_detail]. *)
Lemma forum_post_detail_missing (request : HttpRequest) (w : World) (post_id : Z) :
  (forall p, In p (forum_posts (db w)) -> post_pk p <> post_id) ->
  Handler.serve (Views.forum_post_detail_2 request post_id) w =
  (Handler.server_error (DoesNotExist ForumPostModel), w).
Proof.
  intros H. unfold Handler.serve, Views.forum_post_detail_2, bind, get_db, lift.
  now rewrite (get_missing ForumPostModel post_pk _ _ H).
Qed.

(** C1 (the code at the failing input).  With resource 1 and forum post 1
    in the store, a GET of [/resource/1/] renders resource 1, while a GET
    of [/resource/2/] and a GET of [/forum/2/] end in [DoesNotExist]
    escaping the view: the client gets a 500 response, not a 404. *)
Theorem detail_views_missing_id_server_error :
  Handler.get_response "/resource/1/" plain_get (sample_world Anonymous) =
    (Handler.response
       (render "resource_detail.html"
          [("resource", VResource (mkResource 1 "Nutrition Guide" "Eat well."))]),
     sample_world Anonymous)
  /\ Handler.get_response "/resource/2/" plain_get (sample_world Anonymous) =
       (Handler.server_error (DoesNotExist ResourceModel), sample_world Anonymous)
  /\ Handler.get_response "/forum/2/" plain_get (sample_world Anonymous) =
       (Handler.server_error (DoesNotExist ForumPostModel), sample_world Anonymous)
  /\ Handler.status_code
       (Handler.get_response "/resource/2/" plain_get (sample_world Anonymous)).1 = Some 500
  /\ Handler.status_code
       (Handler.get_response "/forum/2/" plain_get (sample_world Anonymous)).1 = Some 500.
Proof. vm_compute. repeat split. Qed.

(** ** Forms *)

Section FormFacts.

Import Forms.













End FormFacts.

(** ** Submission views *)







(** A title with surrounding blanks is stored without them, and a title
    of blanks only is not stored. *)
Example padded_and_blank_titles :
  Views.submit_resource
    (mkRequest "POST" [] [("title", " Iron "); ("content", "Leafy greens.")])
    (sample_world Anonymous) =
    (Ok (redirect "home" []),
     mkWorld (with_new_resource sample_store "Iron" "Leafy greens.") Anonymous)
  /\ Views.submit_resource
       (mkRequest "POST" [] [("title", "   "); ("content", "Leafy greens.")])
       (sample_world Anonymous) =
     (Ok (render "submit_resource.html"
            [("form", VForm (mkForm true [("title", "   "); ("content", "Leafy greens.")]
                                    [("title", Forms.required_msg)]
                                    [("content", "Leafy greens.")]))]),
      sample_world Anonymous).
Proof. vm_compute. split; reflexivity. Qed.

(** ** Comments *)









(** ** Search *)

Lemma route_search :
  Urls.resolve_path "/search/" =
  Some (Urls.mkMatch (Urls.view Views.def_search_160) [] "search").
Proof. vm_compute. reflexivity. Qed.

Lemma search_served (request : HttpRequest) (w : World) :
  Handler.get_response "/search/" request w =
  let query := default EmptyString (qd_get (GET request) "q" (Some EmptyString)) in
  (Handler.response
     (render "search_results.html"
        [("resources",
          VResources (List.filter (fun r => Text.icontains (resource_title r) query)
                                  (resources (db w))));
         ("forum_posts",
          VForumPosts (List.filter (fun p => Text.icontains (post_title p) query)
                                   (forum_posts (db w))));
         ("query", VStr query)]), w).
Proof. unfold Handler.get_response. rewrite route_search. reflexivity. Qed.

Lemma filter_icontains_spec {A} (title : A -> string) (rows : list A) (q : string) (x : A) :
  In x (List.filter (fun r => Text.icontains (title r) q) rows) <->
  In x rows /\ contains_ignoring_case (title x) q.
Proof. rewrite filter_In, icontains_spec. reflexivity. Qed.

Lemma filter_icontains_empty {A} (title : A -> string) (rows : list A) (q : string) :
  (forall r, In r rows -> ~ contains_ignoring_case (title r) q) ->
  List.filter (fun r => Text.icontains (title r) q) rows = [].
Proof.
  intros H. apply filter_nothing. intros r Hr.
  destruct (Text.icontains (title r) q) eqn:E; [|reflexivity].
  apply icontains_spec in E. now apply H in Hr.
Qed.

(** C3.  A GET of [/search/] whose parameter [q] is the text [q] renders
    the result page with exactly the resources and exactly the forum posts
    of the store whose title contains [q] up to the case of the letters, in
    the order of the store; when no title does, both lists are empty.  The
    store and the session are left as they were. *)
Theorem search_returns_title_matches (request : HttpRequest) (w : World) (q : string) :
  qd_get (GET request) "q" (Some EmptyString) = Some q ->
  exists rs ps,
    Handler.get_response "/search/" request w =
      (Handler.response
         (render "search_results.html"
            [("resources", VResources rs);
             ("forum_posts", VForumPosts ps);
             ("query", VStr q)]), w)
    /\ (forall r, In r rs <->
          In r (resources (db w)) /\ contains_ignoring_case (resource_title r) q)
    /\ (forall p, In p ps <->
          In p (forum_posts (db w)) /\ contains_ignoring_case (post_title p) q)
    /\ sublist rs (resources (db w))
    /\ sublist ps (forum_posts (db w))
    /\ ((forall r, In r (resources (db w)) ->
           ~ contains_ignoring_case (resource_title r) q) -> rs = [])
    /\ ((forall p, In p (forum_posts (db w)) ->
           ~ contains_ignoring_case (post_title p) q) -> ps = []).
Proof.
  intros Hq.
  exists (List.filter (fun r => Text.icontains (resource_title r) q) (resources (db w))),
         (List.filter (fun p => Text.icontains (post_title p) q) (forum_posts (db w))).
  rewrite search_served, Hq. simpl. split; [reflexivity|].
  split; [intros r; apply filter_icontains_spec|].
  split; [intros p; apply filter_icontains_spec|].
  split; [apply filter_sublist|].
  split; [apply filter_sublist|].
  split; apply filter_icontains_empty.
Qed.

(** The scenario of the spec: [q=nutrition] finds "Nutrition Guide". *)
Lemma search_returns_title_matches_witness :
  qd_get (GET nutrition_search) "q" (Some EmptyString) = Some "nutrition"
  /\ exists rs ps,
       Handler.get_response "/search/" nutrition_search (sample_world Anonymous) =
         (Handler.response
            (render "search_results.html"
               [("resources", VResources rs);
                ("forum_posts", VForumPosts ps);
                ("query", VStr "nutrition")]), sample_world Anonymous)
       /\ In (mkResource 1 "Nutrition Guide" "Eat well.") rs.
Proof.
  split; [reflexivity|].
  destruct (search_returns_title_matches nutrition_search (sample_world Anonymous)
              "nutrition" eq_refl) as (rs & ps & Hresp & Hrs & _).
  exists rs, ps. split; [exact Hresp|].
  apply Hrs. split; [left; reflexivity|].
  apply icontains_spec. reflexivity.
Defined.

(** C10.  When [q] is absent from the query string, or is the empty text,
    the search view does not raise: it renders the result page (status 200)
    with every resource and every forum post of the store. *)
Theorem search_empty_query_matches_everything (request : HttpRequest) (w : World) :
  qd_get (GET request) "q" None = None \/ qd_get (GET request) "q" None = Some EmptyString ->
  Handler.get_response "/search/" request w =
    (Handler.response
       (render "search_results.html"
          [("resources", VResources (resources (db w)));
           ("forum_posts", VForumPosts (forum_posts (db w)));
           ("query", VStr EmptyString)]), w)
  /\ Handler.status_code (Handler.get_response "/search/" request w).1 = Some 200.
Proof.
  intros H.
  assert (Hq : qd_get (GET request) "q" (Some EmptyString) = Some EmptyString).
  { rewrite qd_get_default. destruct H as [-> | ->]; reflexivity. }
  rewrite search_served, Hq. simpl.
  rewrite !filter_all by (intros; apply icontains_empty_query).
  split; reflexivity.
Qed.

(** A search with no query string at all. *)
Lemma search_empty_query_matches_everything_witness :
  (qd_get (GET plain_get) "q" None = None
   \/ qd_get (GET plain_get) "q" None = Some EmptyString)
  /\ Handler.get_response "/search/" plain_get (sample_world Anonymous) =
       (Handler.response
          (render "search_results.html"
             [("resources", VResources (resources sample_store));
              ("forum_posts", VForumPosts (forum_posts sample_store));
              ("query", VStr EmptyString)]), sample_world Anonymous).
Proof.
  split; [left; reflexivity|].
  apply (search_empty_query_matches_everything plain_get (sample_world Anonymous)).
  left. reflexivity.
Defined.

(** The two definitions of [search] are different functions: a query that
    occurs in a content but in no title is found by the first only. *)
Example search_definitions_differ :
  let w := sample_world Anonymous in
  (Views.search_1 (mkRequest "GET" [("query", "eat")] []) w).1 =
    Ok (render "search_results.html"
          [("form", VForm (Forms.SearchForm [("query", "eat")]));
           ("resources", VResources [mkResource 1 "Nutrition Guide" "Eat well."]);
           ("forum_posts", VForumPosts [])])
  /\ (Views.search_2 (mkRequest "GET" [("q", "eat")] []) w).1 =
    Ok (render "search_results.html"
          [("resources", VResources []);
           ("forum_posts", VForumPosts []);
           ("query", VStr "eat")]).
Proof. vm_compute. split; reflexivity. Qed.

(** ** Login and logout *)





(** A user name with surrounding blanks is the user name without them. *)
Example padded_username_logs_in :
  Views.login_view
    (mkRequest "POST" [] [("username", " amina "); ("password", "s3cret")])
    (sample_world Anonymous) =
  (Ok (redirect "home" []), sample_world (Authenticated 7)).
Proof. vm_compute. reflexivity. Qed.

(** C9.  [logout_view] needs nothing of the session it finds: from any
    world it returns (it does not raise) the redirect to home and leaves
    the session anonymous and the store untouched; a second call gives the
    same response and the same world as the first. *)
Theorem logout_view_idempotent (request request' : HttpRequest) (w : World) :
  Views.logout_view request w = (Ok (redirect "home" []), mkWorld (db w) Anonymous)
  /\ session (Views.logout_view request w).2 = Anonymous
  /\ Views.logout_view request' (Views.logout_view request w).2 =
     Views.logout_view request w.
Proof. repeat split. Qed.

(** ** Routing *)

Section ResolverFacts.

Import Urls.

Lemma endpoints_include (r : Route) (ps : list URLPattern) :
  endpoints (include r ps) = endpoints_of ps.
Proof.
  unfold endpoints_of. simpl.
  induction ps as [|p ps IH]; [reflexivity|]. simpl. now rewrite IH.
Qed.

(** Inside an [include] the patterns are tried like at the top. *)
Lemma resolve_include (r : Route) (ps : list URLPattern) (s : string) :
  resolve_pattern (include r ps) s =
  match match_route r s with
  | Some (kw, rest) =>
      match resolve ps rest with
      | Some m => Some (mkMatch (func m) (kw ++ kwargs m) (url_name m))
      | None => None
      end
  | None => None
  end.
Proof.
  simpl. destruct (match_route r s) as [[kw rest]|]; [|reflexivity].
  induction ps as [|p ps IH]; [reflexivity|]. simpl.
  destruct (resolve_pattern p rest) as [m|]; [reflexivity | exact IH].
Qed.

Lemma resolve_pattern_endpoint :
  forall (p : URLPattern) (s : string) (m : ResolverMatch),
    resolve_pattern p s = Some m -> In (func m, url_name m) (endpoints p).
Proof.
  fix IH 1. intros [r callback name | r urlconf | r app] s m H.
  - simpl in H. destruct (match_route r s) as [[kw [|]]|]; try discriminate.
    injection H as <-. left. reflexivity.
  - simpl in H. destruct (match_route r s) as [[kw rest]|]; [|discriminate].
    simpl. revert H. induction urlconf as [|p' ps' IHps]; [discriminate|].
    destruct (resolve_pattern p' rest) as [m'|] eqn:E.
    + intros [= <-]. apply in_or_app. left. exact (IH p' rest m' E).
    + intros H. apply in_or_app. right. exact (IHps H).
  - simpl in H. destruct (match_route r s) as [[kw rest]|]; [|discriminate].
    injection H as <-. left. reflexivity.
Qed.

Lemma resolve_endpoint (ps : list URLPattern) (s : string) (m : ResolverMatch) :
  resolve ps s = Some m -> In (func m, url_name m) (endpoints_of ps).
Proof.
  unfold endpoints_of. induction ps as [|p ps IH]; [discriminate|]. simpl.
  destruct (resolve_pattern p s) as [m'|] eqn:E.
  - intros [= <-]. apply in_or_app. left. exact (resolve_pattern_endpoint _ _ _ E).
  - intros H. apply in_or_app. right. exact (IH H).
Qed.

Lemma resolve_app (ps1 ps2 : list URLPattern) (s : string) :
  resolve (ps1 ++ ps2) s =
  match resolve ps1 s with
  | Some m => Some m
  | None => resolve ps2 s
  end.
Proof.
  induction ps1 as [|p ps1 IH]; [reflexivity|]. simpl.
  destruct (resolve_pattern p s); [reflexivity | exact IH].
Qed.

(** The first pattern that matches is the answer, whatever follows. *)
Lemma first_match_wins (ps1 ps2 : list URLPattern) (p : URLPattern)
    (s : string) (m : ResolverMatch) :
  resolve ps1 s = None -> resolve_pattern p s = Some m ->
  resolve (ps1 ++ p :: ps2) s = Some m.
Proof. intros H1 Hp. rewrite resolve_app, H1. simpl. now rewrite Hp. Qed.

(** Two registrations of one route match the same paths. *)
Lemma same_route_same_paths (r : Route) (c1 c2 : Callable) (n1 n2 : string)
    (s : string) :
  resolve_pattern (path r c1 n1) s = None <->
  resolve_pattern (path r c2 n2) s = None.
Proof.
  simpl. destruct (match_route r s) as [[kw [|]]|]; split; congruence.
Qed.

(** A registration that repeats the route of an earlier one can be
    taken out of the list without changing the answer for any path. *)
Lemma shadowed_registration_is_dead
    (ps1 ps2 ps3 : list URLPattern) (r : Route) (c1 c2 : Callable)
    (n1 n2 : string) (s : string) :
  resolve (ps1 ++ path r c1 n1 :: ps2 ++ path r c2 n2 :: ps3) s =
  resolve (ps1 ++ path r c1 n1 :: ps2 ++ ps3) s.
Proof.
  rewrite !resolve_app. destruct (resolve ps1 s); [reflexivity|].
  change (resolve (path r c1 n1 :: ?l) s) with
    (match resolve_pattern (path r c1 n1) s with
     | Some m => Some m
     | None => resolve l s
     end).
  destruct (resolve_pattern (path r c1 n1) s) as [m|] eqn:E; [reflexivity|].
  rewrite !resolve_app. destruct (resolve ps2 s); [reflexivity|].
  apply (same_route_same_paths r c1 c2 n1 n2) in E.
  change (resolve (path r c2 n2 :: ps3) s) with
    (match resolve_pattern (path r c2 n2) s with
     | Some m => Some m
     | None => resolve ps3 s
     end).
  now rewrite E.
Qed.

End ResolverFacts.

Lemma urlpatterns_eq : Urls.urlpatterns = Some root_urlconf.
Proof. vm_compute. reflexivity. Qed.

Lemma resolve_path_root (path_info : string) (m : Urls.ResolverMatch) :
  Urls.resolve_path path_info = Some m ->
  exists s, Text.strip_prefix "/" path_info = Some s /\ Urls.resolve root_urlconf s = Some m.
Proof.
  unfold Urls.resolve_path. rewrite urlpatterns_eq.
  destruct (Text.strip_prefix "/" path_info) as [s|]; [|discriminate].
  intros H. now exists s.
Qed.

Lemma core_resolve_first_only (s : string) :
  Urls.resolve core_urlconf s = Urls.resolve core_urlconf_first_only s.
Proof.
  unfold core_urlconf, core_urlconf_first_only.
  etransitivity.
  { exact (shadowed_registration_is_dead
             [Urls.path [] (Urls.view Views.def_home_9) "home";
              Urls.path [Urls.lit "resource/"; Urls.int "resource_id"; Urls.lit "/"]
                (Urls.view Views.def_resource_detail_15) "resource_detail";
              Urls.path [Urls.lit "forum/"; Urls.int "post_id"; Urls.lit "/"]
                (Urls.view Views.def_forum_post_detail_46) "forum_post_detail";
              Urls.path [Urls.lit "submit/resource/"]
                (Urls.view Views.def_submit_resource_25) "submit_resource";
              Urls.path [Urls.lit "submit/forum/"]
                (Urls.view Views.def_submit_forum_post_36) "submit_forum_post"]
             [Urls.path [Urls.lit "logout/"] Urls.auth_LogoutView "logout"]
             [Urls.path [Urls.lit "search/"] (Urls.view Views.def_search_160) "search";
              Urls.path [Urls.lit "signup/"] (Urls.view Views.def_signup_126) "signup";
              Urls.path [Urls.lit "login/"] (Urls.view Views.def_login_view_137) "login";
              Urls.path [Urls.lit "logout/"] (Urls.view Views.def_logout_view_154) "logout"]
             [Urls.lit "login/"] (Urls.auth_LoginView None)
             (Urls.auth_LoginView (Some "login.html")) "login" "login" s). }
  etransitivity.
  { exact (shadowed_registration_is_dead
             [Urls.path [] (Urls.view Views.def_home_9) "home";
              Urls.path [Urls.lit "resource/"; Urls.int "resource_id"; Urls.lit "/"]
                (Urls.view Views.def_resource_detail_15) "resource_detail";
              Urls.path [Urls.lit "forum/"; Urls.int "post_id"; Urls.lit "/"]
                (Urls.view Views.def_forum_post_detail_46) "forum_post_detail";
              Urls.path [Urls.lit "submit/resource/"]
                (Urls.view Views.def_submit_resource_25) "submit_resource";
              Urls.path [Urls.lit "submit/forum/"]
                (Urls.view Views.def_submit_forum_post_36) "submit_forum_post"]
             [Urls.path [Urls.lit "logout/"] Urls.auth_LogoutView "logout";
              Urls.path [Urls.lit "search/"] (Urls.view Views.def_search_160) "search";
              Urls.path [Urls.lit "signup/"] (Urls.view Views.def_signup_126) "signup"]
             [Urls.path [Urls.lit "logout/"] (Urls.view Views.def_logout_view_154) "logout"]
             [Urls.lit "login/"] (Urls.auth_LoginView None)
             (Urls.view Views.def_login_view_137) "login" "login" s). }
  exact (shadowed_registration_is_dead
           [Urls.path [] (Urls.view Views.def_home_9) "home";
            Urls.path [Urls.lit "resource/"; Urls.int "resource_id"; Urls.lit "/"]
              (Urls.view Views.def_resource_detail_15) "resource_detail";
            Urls.path [Urls.lit "forum/"; Urls.int "post_id"; Urls.lit "/"]
              (Urls.view Views.def_forum_post_detail_46) "forum_post_detail";
            Urls.path [Urls.lit "submit/resource/"]
              (Urls.view Views.def_submit_resource_25) "submit_resource";
            Urls.path [Urls.lit "submit/forum/"]
              (Urls.view Views.def_submit_forum_post_36) "submit_forum_post";
            Urls.path [Urls.lit "login/"] (Urls.auth_LoginView None) "login"]
           [Urls.path [Urls.lit "search/"] (Urls.view Views.def_search_160) "search";
            Urls.path [Urls.lit "signup/"] (Urls.view Views.def_signup_126) "signup"]
           []
           [Urls.lit "logout/"] Urls.auth_LogoutView
           (Urls.view Views.def_logout_view_154) "logout" "logout" s).
Qed.

(** Every answer of the resolver is one of the first registrations. *)
Lemma dispatched_endpoint (path_info : string) (m : Urls.ResolverMatch) :
  Urls.resolve_path path_info = Some m ->
  In (Urls.func m, Urls.url_name m)
     ((Urls.admin_site_urls, EmptyString) :: endpoints_of core_urlconf_first_only).
Proof.
  intros H. destruct (resolve_path_root _ _ H) as (s & _ & Hs).
  unfold root_urlconf in Hs.
  change (Urls.resolve (?p :: ?l) s) with
    (match Urls.resolve_pattern p s with
     | Some m => Some m
     | None => Urls.resolve l s
     end) in Hs.
  destruct (Urls.resolve_pattern (Urls.mount _ _) s) as [m'|] eqn:E.
  - injection Hs as ->. apply resolve_pattern_endpoint in E.
    destruct E as [E|[]]. left. exact E.
  - change (Urls.resolve (?p :: ?l) s) with
      (match Urls.resolve_pattern p s with
       | Some m => Some m
       | None => Urls.resolve l s
       end) in Hs.
    rewrite resolve_include in Hs.
    change (Urls.match_route [] s) with (Some (@nil (string * Z), s)) in Hs.
    cbv beta iota in Hs. rewrite core_resolve_first_only in Hs.
    destruct (Urls.resolve core_urlconf_first_only s) as [m'|] eqn:E'; [|discriminate].
    apply resolve_endpoint in E'. right.
    change (Urls.resolve [] s) with (@None Urls.ResolverMatch) in Hs.
    injection Hs as <-. exact E'.
Qed.

(** Case analysis over the registrations that can answer. *)
Ltac each_endpoint H :=
  cbn [endpoints_of core_urlconf_first_only flat_map endpoints app
       Urls.func Urls.url_name] in H;
  repeat (destruct H as [H|H]; [injection H as <- <-|]);
  [..|destruct H].

(** C7.  [/login/] is registered three times and [/logout/] twice.  A
    request for [/login/] goes to the first registration, the stock login
    view, and a request for [/logout/] to the stock logout view; no path at
    all is answered by one of the later registrations (the login view with
    [template_name], [views.login_view], [views.logout_view]); and in any
    list of patterns a registration that repeats the route of an earlier
    one can be removed without changing the answer for any path. *)
Theorem duplicate_routes_first_registration_wins :
  Urls.resolve_path "/login/" =
    Some (Urls.mkMatch (Urls.auth_LoginView None) [] "login")
  /\ Urls.resolve_path "/logout/" =
    Some (Urls.mkMatch Urls.auth_LogoutView [] "logout")
  /\ (forall path_info m,
        Urls.resolve_path path_info = Some m ->
        Urls.func m <> Urls.auth_LoginView (Some "login.html")
        /\ (forall d, Urls.func m = Urls.view d ->
              Views.namespace !! "login_view" <> Some d
              /\ Views.namespace !! "logout_view" <> Some d))
  /\ (forall ps1 ps2 ps3 r c1 c2 n1 n2 s,
        Urls.resolve (ps1 ++ Urls.path r c1 n1 :: ps2 ++ Urls.path r c2 n2 :: ps3) s =
        Urls.resolve (ps1 ++ Urls.path r c1 n1 :: ps2 ++ ps3) s).
Proof.
  split; [vm_compute; reflexivity|].
  split; [vm_compute; reflexivity|].
  split; [|intros; apply shadowed_registration_is_dead].
  intros path_info m H. apply dispatched_endpoint in H.
  destruct m as [f kw n].
  assert (Hlogin : Views.namespace !! "login_view" = Some Views.def_login_view_137)
    by (vm_compute; reflexivity).
  assert (Hlogout : Views.namespace !! "logout_view" = Some Views.def_logout_view_154)
    by (vm_compute; reflexivity).
  rewrite Hlogin, Hlogout. clear Hlogin Hlogout.
  each_endpoint H; (split; [discriminate|]); intros d Hd;
    (discriminate Hd || (injection Hd as <-; split; discriminate)).
Qed.

(** The path [/login/] itself. *)
Lemma duplicate_routes_first_registration_wins_witness :
  Urls.resolve_path "/login/" = Some (Urls.mkMatch (Urls.auth_LoginView None) [] "login")
  /\ Urls.auth_LoginView None <> Urls.auth_LoginView (Some "login.html").
Proof.
  split; [reflexivity|].
  exact (proj1 (proj1 (proj2 (proj2 duplicate_routes_first_registration_wins))
                  "/login/" (Urls.mkMatch (Urls.auth_LoginView None) [] "login")
                  eq_refl)).
Defined.

(** ** The namespace of [core/views.py] *)



(** * Further properties of the views and the routes *)

(** ** What a view does to the world *)

Lemma authenticate_in (s : Store) (username password : string) (u : User) :
  Auth.authenticate s username password = Some u ->
  In u (users s) /\ user_username u = username /\ user_password u = password
  /\ user_is_active u = true.
Proof.
  unfold Auth.authenticate. intros H.
  destruct (List.filter _ (users s)) as [|u' l] eqn:E; [discriminate|].
  assert (Hin : In u' (List.filter (fun u => String.eqb (user_username u) username)
                                   (users s))) by (rewrite E; now left).
  apply filter_In in Hin. destruct Hin as [Hin Hname].
  destruct (String.eqb (user_password u') password) eqn:Hp; [|discriminate].
  destruct (user_is_active u') eqn:Ha; [|discriminate].
  injection H as <-.
  apply String.eqb_eq in Hname, Hp. auto.
Qed.

Lemma world_eta (w : World) : mkWorld (db w) (session w) = w.
Proof. now destruct w. Qed.

Lemma call_effect (d : Views.Def) (request : HttpRequest) (kw : list (string * Z))
    (w : World) :
  Effect d request w (Views.call d request kw w).2.
Proof.
  destruct d; unfold Views.call, Views.with_kwarg;
    try (destruct (Views.kwarg kw _); [|apply effect_none]);
    unfold Views.home, Views.resource_detail, Views.forum_post_detail_1,
      Views.submit_resource, Views.submit_forum_post, Views.forum_post_detail_2,
      Views.signup, Views.search_1, Views.login_view, Views.logout_view,
      Views.search_2, ORM.save_resource, ORM.save_forum_post, ORM.save_comment,
      ORM.save_user, Auth.login, Auth.logout, Auth.request_user,
      Auth.assign_user, Auth.user_of,
      bind, get_db, put_db, get_session, put_session, lift, ret, raise;
    repeat match goal with
      | |- context [Views.is_post ?r] => destruct (Views.is_post r) eqn:?
      | |- context [Forms.is_valid ?f] => destruct (Forms.is_valid f) eqn:?
      | |- context [ORM.get ?m ?f ?rows ?pk] =>
          let E := fresh "E" in
          destruct (ORM.get m f rows pk) eqn:E;
          [apply get_ok in E; destruct E|]
      | |- context [Auth.authenticate ?s ?u ?p] =>
          let E := fresh "E" in
          destruct (Auth.authenticate s u p) eqn:E;
          [apply authenticate_in in E; destruct E|]
      | |- context [match session ?w0 with _ => _ end] => destruct (session w0) eqn:?
      end;
    cbn [snd fst db session];
    first [ apply effect_none
          | now apply effect_resource
          | now apply effect_forum_post
          | now eapply effect_comment
          | now apply effect_user
          | now apply effect_login
          | now apply effect_logout ].
Qed.

(** X1.  No view deletes or edits a stored row: after any call of any view
    every table is the table before, followed by the rows the call added,
    and one call adds at most one row in all. *)
Theorem views_only_append (d : Views.Def) (request : HttpRequest)
    (kw : list (string * Z)) (w : World) :
  exists rs ps cs us,
    resources (db (Views.call d request kw w).2) = resources (db w) ++ rs
    /\ forum_posts (db (Views.call d request kw w).2) = forum_posts (db w) ++ ps
    /\ comments (db (Views.call d request kw w).2) = comments (db w) ++ cs
    /\ users (db (Views.call d request kw w).2) = users (db w) ++ us
    /\ (length rs + length ps + length cs + length us <= 1)%nat.
Proof.
  destruct (call_effect d request kw w);
    [ exists [], [], [], []
    | eexists [_], [], [], []
    | eexists [], [_], [], []
    | eexists [], [], [_], []
    | eexists [], [], [], [_]
    | exists [], [], [], []
    | exists [], [], [], [] ];
    cbn [db resources forum_posts comments users with_new_resource
         with_new_forum_post with_new_comment with_new_user length];
    rewrite ?app_nil_r; repeat split; lia.
Qed.

(** X2.  A request whose method is not POST changes nothing, neither the
    store nor the session, in every view but [logout_view], which logs out
    on any method. *)
Theorem non_post_requests_are_safe (d : Views.Def) (request : HttpRequest)
    (kw : list (string * Z)) (w : World) :
  Views.is_post request = false ->
  Views.def_name d <> "logout_view" ->
  (Views.call d request kw w).2 = w.
Proof.
  intros Hpost Hd.
  destruct (call_effect d request kw w); congruence.
Qed.

Lemma non_post_requests_are_safe_witness :
  Views.is_post plain_get = false
  /\ Views.def_name Views.def_forum_post_detail_46 <> "logout_view"
  /\ (Views.call Views.def_forum_post_detail_46 plain_get [("post_id", 1)]
        (sample_world (Authenticated 7))).2 = sample_world (Authenticated 7).
Proof.
  split; [reflexivity|]. split; [discriminate|].
  apply (non_post_requests_are_safe Views.def_forum_post_detail_46 plain_get
           [("post_id", 1)] (sample_world (Authenticated 7)));
    [reflexivity | discriminate].
Defined.

(** X3.  Each table has one writer and the session two: only
    [submit_resource] changes the resources, only [submit_forum_post] the
    forum posts, only the [forum_post_detail] of line 46 the comments, only
    [signup] the users, and only [login_view] and [logout_view] the
    session.  In particular [signup] does not log the new user in. *)
Theorem views_write_footprint (d : Views.Def) (request : HttpRequest)
    (kw : list (string * Z)) (w : World) :
  (d <> Views.def_submit_resource_25 ->
     resources (db (Views.call d request kw w).2) = resources (db w))
  /\ (d <> Views.def_submit_forum_post_36 ->
     forum_posts (db (Views.call d request kw w).2) = forum_posts (db w))
  /\ (d <> Views.def_forum_post_detail_46 ->
     comments (db (Views.call d request kw w).2) = comments (db w))
  /\ (Views.def_name d <> "signup" ->
     users (db (Views.call d request kw w).2) = users (db w))
  /\ (Views.def_name d <> "login_view" -> Views.def_name d <> "logout_view" ->
     session (Views.call d request kw w).2 = session w).
Proof.
  destruct (call_effect d request kw w); repeat split; intros;
    try reflexivity; congruence.
Qed.

Lemma views_write_footprint_witness :
  Views.def_name Views.def_signup_126 <> "login_view"
  /\ Views.def_name Views.def_signup_126 <> "logout_view"
  /\ session (Views.call Views.def_signup_126 new_signup [] (sample_world Anonymous)).2
     = Anonymous.
Proof.
  split; [discriminate|]. split; [discriminate|].
  apply (views_write_footprint Views.def_signup_126 new_signup []
           (sample_world Anonymous)); discriminate.
Defined.

Lemma NoDup_pk_snoc {A} (pk_of : A -> Z) (rows : list A) (r : A) :
  List.NoDup (map pk_of rows) ->
  pk_of r = ORM.next_pk pk_of rows ->
  List.NoDup (map pk_of (rows ++ [r])).
Proof.
  intros Hnd Hr. rewrite map_app. simpl.
  apply List.NoDup_app; [exact Hnd | |].
  - constructor; [intros []|constructor].
  - intros x Hx Hx'. destruct Hx' as [<-|[]].
    apply in_map_iff in Hx. destruct Hx as (r' & E & Hr').
    pose proof (next_pk_fresh pk_of _ _ Hr'). lia.
Qed.

(** X4.  The primary keys stay unique: when no two rows of a table share
    an id before a call of a view, none do after it. *)
Theorem views_keep_pks_unique (d : Views.Def) (request : HttpRequest)
    (kw : list (string * Z)) (w : World) :
  unique_pks (db w) -> unique_pks (db (Views.call d request kw w).2).
Proof.
  intros (Hr & Hp & Hc & Hu).
  destruct (call_effect d request kw w); unfold unique_pks;
    cbn [db resources forum_posts comments users with_new_resource
         with_new_forum_post with_new_comment with_new_user];
    repeat split; try assumption; now apply NoDup_pk_snoc.
Qed.

Lemma sample_store_unique_pks : unique_pks sample_store.
Proof.
  repeat split; simpl; repeat constructor; simpl; intuition discriminate.
Qed.

Lemma views_keep_pks_unique_witness :
  unique_pks sample_store
  /\ unique_pks (db (Views.call Views.def_submit_resource_25 resource_submission []
                       (sample_world Anonymous)).2).
Proof.
  split; [exact sample_store_unique_pks|].
  exact (views_keep_pks_unique Views.def_submit_resource_25 resource_submission []
           (sample_world Anonymous) sample_store_unique_pks).
Defined.

(** X5.  Every comment keeps a forum post: when each stored comment
    refers to a stored forum post before a call of a view, each does after
    it, the new comment included. *)
Theorem views_keep_comments_attached (d : Views.Def) (request : HttpRequest)
    (kw : list (string * Z)) (w : World) :
  comments_have_posts (db w) -> comments_have_posts (db (Views.call d request kw w).2).
Proof.
  intros H.
  destruct (call_effect d request kw w) as [| | |post uid body _ _ Hin _| | |];
    unfold comments_have_posts in *;
    cbn [db resources forum_posts comments users with_new_resource
         with_new_forum_post with_new_comment with_new_user];
    try exact H.
  - intros c Hc. destruct (H c Hc) as (p & Hp & E).
    exists p. split; [apply in_or_app; now left | exact E].
  - intros c Hc. apply in_app_or in Hc. destruct Hc as [Hc|[<-|[]]].
    + exact (H c Hc).
    + exists post. split; [exact Hin | reflexivity].
Qed.

Lemma views_keep_comments_attached_witness :
  comments_have_posts sample_store
  /\ comments_have_posts
       (db (Views.call Views.def_forum_post_detail_46 comment_submission
              [("post_id", 1)] (sample_world (Authenticated 7))).2).
Proof.
  assert (H : comments_have_posts sample_store) by (intros c []).
  split; [exact H|].
  exact (views_keep_comments_attached Views.def_forum_post_detail_46
           comment_submission [("post_id", 1)] (sample_world (Authenticated 7)) H).
Defined.

(** ** What the routes hand to the views *)






Lemma registrations_include (r : Urls.Route) (ps : list Urls.URLPattern) :
  registrations (Urls.include r ps) =
  map (fun reg => (reg.1, route_params r ++ reg.2)) (registrations_of ps).
Proof.
  unfold registrations_of. cbn [registrations].
  induction ps as [|p ps IH]; [reflexivity|].
  cbn [flat_map]. rewrite map_app, IH. reflexivity.
Qed.



(** The registrations of the whole site. *)
Lemma site_registrations :
  registrations_of root_urlconf =
  [(Urls.admin_site_urls, EmptyString, []);
   (Urls.view Views.def_home_9, "home", []);
   (Urls.view Views.def_resource_detail_15, "resource_detail", ["resource_id"]);
   (Urls.view Views.def_forum_post_detail_46, "forum_post_detail", ["post_id"]);
   (Urls.view Views.def_submit_resource_25, "submit_resource", []);
   (Urls.view Views.def_submit_forum_post_36, "submit_forum_post", []);
   (Urls.auth_LoginView None, "login", []);
   (Urls.auth_LogoutView, "logout", []);
   (Urls.auth_LoginView (Some "login.html"), "login", []);
   (Urls.view Views.def_search_160, "search", []);
   (Urls.view Views.def_signup_126, "signup", []);
   (Urls.view Views.def_login_view_137, "login", []);
   (Urls.view Views.def_logout_view_154, "logout", [])].
Proof. reflexivity. Qed.







(** X7.  Every redirect a view answers with names a registered route and
    carries exactly the arguments that route captures, so the target of
    the redirect can always be built. *)
Theorem redirects_name_registered_routes (d : Views.Def) (request : HttpRequest)
    (kw : list (string * Z)) (w : World) (to : string) (args : list (string * Z)) :
  (Views.call d request kw w).1 = Ok (redirect to args) ->
  exists callback, In (callback, to, map fst args) (registrations_of root_urlconf).
Proof.
  rewrite site_registrations.
  destruct d; unfold Views.call, Views.with_kwarg;
    try match goal with
      | |- context [Views.kwarg kw ?n] => destruct (Views.kwarg kw n) eqn:Hkw
      end;
    unfold Views.home, Views.resource_detail, Views.forum_post_detail_1,
      Views.submit_resource, Views.submit_forum_post, Views.forum_post_detail_2,
      Views.signup, Views.search_1, Views.login_view, Views.logout_view,
      Views.search_2, ORM.save_resource, ORM.save_forum_post, ORM.save_comment,
      ORM.save_user, Auth.login, Auth.logout, Auth.request_user,
      Auth.assign_user, Auth.user_of,
      bind, get_db, put_db, get_session, put_session, lift, ret, raise;
    repeat match goal with
      | |- context [Views.is_post ?r] => destruct (Views.is_post r) eqn:?
      | |- context [Forms.is_valid ?f] => destruct (Forms.is_valid f) eqn:?
      | |- context [ORM.get ?m ?f ?rows ?pk] => destruct (ORM.get m f rows pk) eqn:?
      | |- context [Auth.authenticate ?s ?u ?p] => destruct (Auth.authenticate s u p) eqn:?
      | |- context [match session ?w0 with _ => _ end] => destruct (session w0) eqn:?
      end;
    cbn [snd fst]; try discriminate;
    intros [= <- <-]; eexists; cbn [map fst]; simpl; eauto 15.
Qed.

Lemma redirects_name_registered_routes_witness :
  (Views.call Views.def_forum_post_detail_46 comment_submission [("post_id", 1)]
     (sample_world (Authenticated 7))).1 =
    Ok (redirect "forum_post_detail" [("post_id", 1)])
  /\ exists callback,
       In (callback, "forum_post_detail", ["post_id"]) (registrations_of root_urlconf).
Proof.
  split; [reflexivity|].
  exact (redirects_name_registered_routes Views.def_forum_post_detail_46
           comment_submission [("post_id", 1)] (sample_world (Authenticated 7))
           "forum_post_detail" [("post_id", 1)] eq_refl).
Defined.

(** An [<int:name>] converter in front of a run of digits captures the
    whole run when the rest of the route matches what follows the run. *)
Lemma int_takes_the_digits (name : string) (r : Urls.Route) (ds rest rest' : string)
    (groups : list (string * string)) :
  ds <> EmptyString -> all_digits ds = true -> no_digit_ahead rest ->
  Urls.regex_match r rest = Some (groups, rest') ->
  Urls.regex_match (Urls.int name :: r) (ds +:+ rest) =
  Some ((name, ds) :: groups, rest').
Proof.
  intros Hne Hds Hrest Hr. destruct ds as [|c ds]; [contradiction|]. clear Hne.
  cbn [Urls.regex_match].
  match goal with
  | |- match ?run _ with _ => _ end = _ =>
      enough (Hrun : run (String c ds +:+ rest) = Some (String c ds, (groups, rest')))
        by now rewrite Hrun
  end.
  revert c Hds. induction ds as [|c2 ds IH]; intros c Hds.
  - simpl in Hds. rewrite andb_true_r in Hds.
    rewrite append_cons, append_nil. rewrite Hds.
    destruct rest as [|c' rest0].
    + rewrite Hr. reflexivity.
    + simpl in Hrest. rewrite Hrest, Hr. reflexivity.
  - cbn [all_digits] in Hds. apply andb_true_iff in Hds. destruct Hds as [Hc Hds].
    rewrite append_cons. rewrite Hc.
    rewrite (IH c2 Hds). reflexivity.
Qed.

Lemma strip_prefix_app (p s : string) : Text.strip_prefix p (p +:+ s) = Some s.
Proof.
  induction p as [|c p IH]; [reflexivity|].
  rewrite append_cons. simpl. now rewrite Ascii.eqb_refl.
Qed.

(** A route [text<int:name>/] on a path [text ds /]: the converter gets
    the whole run [ds], and the route matches when [int] accepts it. *)
Lemma detail_route_match (text name ds : string) :
  ds <> EmptyString -> all_digits ds = true ->
  Urls.match_route [Urls.lit text; Urls.int name; Urls.lit "/"] (text +:+ ds +:+ "/") =
  match Urls.int_to_python ds with
  | Some v => Some ([(name, v)], EmptyString)
  | None => None
  end.
Proof.
  intros Hne Hds. unfold Urls.match_route.
  assert (Hlit : Urls.regex_match [Urls.lit text; Urls.int name; Urls.lit "/"]
                   (text +:+ ds +:+ "/") =
                 Urls.regex_match [Urls.int name; Urls.lit "/"] (ds +:+ "/")).
  { change (Urls.regex_match [Urls.lit text; Urls.int name; Urls.lit "/"]
              (text +:+ ds +:+ "/"))
      with (match Text.strip_prefix text (text +:+ ds +:+ "/") with
            | Some s' => Urls.regex_match [Urls.int name; Urls.lit "/"] s'
            | None => None
            end).
    now rewrite strip_prefix_app. }
  rewrite Hlit.
  rewrite (int_takes_the_digits name [Urls.lit "/"] ds "/" EmptyString []
             Hne Hds eq_refl eq_refl).
  cbn [Urls.to_python_all]. now destruct (Urls.int_to_python ds).
Qed.

(** How the two detail paths go through the patterns of the site. *)
Lemma detail_paths_resolve (ds : string) :
  ds <> EmptyString -> all_digits ds = true ->
  Urls.resolve_path ("/resource/" +:+ ds +:+ "/") =
    match Urls.int_to_python ds with
    | Some v => Some (Urls.mkMatch (Urls.view Views.def_resource_detail_15)
                        [("resource_id", v)] "resource_detail")
    | None => None
    end
  /\ Urls.resolve_path ("/forum/" +:+ ds +:+ "/") =
    match Urls.int_to_python ds with
    | Some v => Some (Urls.mkMatch (Urls.view Views.def_forum_post_detail_46)
                        [("post_id", v)] "forum_post_detail")
    | None => None
    end.
Proof.
  intros Hne Hds.
  pose proof (detail_route_match "resource/" "resource_id" ds Hne Hds) as Hres.
  pose proof (detail_route_match "forum/" "post_id" ds Hne Hds) as Hfor.
  unfold Urls.resolve_path. rewrite urlpatterns_eq.
  split.
  - change ("/resource/" +:+ ds +:+ "/") with ("/" +:+ "resource/" +:+ ds +:+ "/").
    rewrite strip_prefix_app.
    unfold root_urlconf, core_urlconf.
    cbn [Urls.resolve Urls.resolve_pattern].
    change (Urls.match_route [Urls.lit "admin/"] ("resource/" +:+ ds +:+ "/"))
      with (@None (list (string * Z) * string)).
    change (Urls.match_route [] ("resource/" +:+ ds +:+ "/"))
      with (Some (@nil (string * Z), "resource/" +:+ ds +:+ "/")).
    cbv beta iota. rewrite Hres.
    destruct (Urls.int_to_python ds); reflexivity.
  - change ("/forum/" +:+ ds +:+ "/") with ("/" +:+ "forum/" +:+ ds +:+ "/").
    rewrite strip_prefix_app.
    unfold root_urlconf, core_urlconf.
    cbn [Urls.resolve Urls.resolve_pattern].
    change (Urls.match_route [Urls.lit "admin/"] ("forum/" +:+ ds +:+ "/"))
      with (@None (list (string * Z) * string)).
    change (Urls.match_route [] ("forum/" +:+ ds +:+ "/"))
      with (Some (@nil (string * Z), "forum/" +:+ ds +:+ "/")).
    cbv beta iota.
    change (Urls.match_route [Urls.lit "resource/"; Urls.int "resource_id"; Urls.lit "/"]
              ("forum/" +:+ ds +:+ "/"))
      with (@None (list (string * Z) * string)).
    cbv beta iota. rewrite Hfor.
    destruct (Urls.int_to_python ds); reflexivity.
Qed.

(** X8.  The detail routes read the id as a decimal number: for every
    non-empty run [ds] of at most 4300 digits (leading zeros included),
    [/resource/ds/] reaches [resource_detail] and [/forum/ds/] reaches the
    [forum_post_detail] of line 46, with the number that [ds] spells as the
    argument.  A longer run is refused by the converter, and the path is
    then not found. *)
Theorem detail_routes_read_decimal (ds : string) :
  ds <> EmptyString -> all_digits ds = true ->
  ((String.length ds <= Urls.int_max_str_digits)%nat ->
     Urls.resolve_path ("/resource/" +:+ ds +:+ "/") =
       Some (Urls.mkMatch (Urls.view Views.def_resource_detail_15)
               [("resource_id", Text.number ds)] "resource_detail")
     /\ Urls.resolve_path ("/forum/" +:+ ds +:+ "/") =
       Some (Urls.mkMatch (Urls.view Views.def_forum_post_detail_46)
               [("post_id", Text.number ds)] "forum_post_detail"))
  /\ ((Urls.int_max_str_digits < String.length ds)%nat ->
      Urls.resolve_path ("/resource/" +:+ ds +:+ "/") = None
      /\ Urls.resolve_path ("/forum/" +:+ ds +:+ "/") = None).
Proof.
  intros Hne Hds. destruct (detail_paths_resolve ds Hne Hds) as [Hres Hfor].
  rewrite Hres, Hfor. unfold Urls.int_to_python. split; intros Hlen.
  - apply Nat.leb_le in Hlen. rewrite Hlen. split; reflexivity.
  - apply Nat.leb_gt in Hlen. rewrite Hlen. split; reflexivity.
Qed.

Lemma detail_routes_read_decimal_witness :
  "007" <> EmptyString /\ all_digits "007" = true
  /\ (String.length "007" <= Urls.int_max_str_digits)%nat
  /\ Urls.resolve_path ("/forum/" +:+ "007" +:+ "/") =
       Some (Urls.mkMatch (Urls.view Views.def_forum_post_detail_46)
               [("post_id", 7)] "forum_post_detail").
Proof.
  assert (Hlen : (String.length "007" <= Urls.int_max_str_digits)%nat)
    by (apply Nat.leb_le; reflexivity).
  split; [discriminate|]. split; [reflexivity|]. split; [exact Hlen|].
  exact (proj2 (proj1 (detail_routes_read_decimal "007" ltac:(discriminate) eq_refl)
                  Hlen)).
Defined.

(** ** Writing, then reading *)








(** ** The two searches *)



Lemma append_assoc (a b c : string) : (a +:+ b) +:+ c = a +:+ b +:+ c.
Proof.
  induction a as [|x a IH]; [reflexivity|].
  rewrite !append_cons. now rewrite IH.
Qed.

(** Containment up to case is transitive. *)
Lemma contains_ignoring_case_trans (value q2 q1 : string) :
  contains_ignoring_case value q2 -> contains_ignoring_case q2 q1 ->
  contains_ignoring_case value q1.
Proof.
  intros (pre & mid & suf & -> & Hmid) (pre' & mid' & suf' & -> & Hmid').
  unfold same_ignoring_case in *.
  rewrite !lower_app in Hmid.
  destruct (lower_split _ _ _ Hmid) as (t1 & t' & -> & H1 & H').
  destruct (lower_split _ _ _ H') as (t2 & t3 & -> & H2 & H3).
  exists (pre +:+ t1), t2, (t3 +:+ suf). split.
  - now rewrite !append_assoc.
  - unfold same_ignoring_case. congruence.
Qed.

Lemma filter_sublist_impl {A} (f g : A -> bool) (l : list A) :
  (forall x, In x l -> f x = true -> g x = true) ->
  sublist (List.filter f l) (List.filter g l).
Proof.
  induction l as [|x l IH]; intros H; simpl; [constructor|].
  assert (IH' : sublist (List.filter f l) (List.filter g l))
    by (apply IH; intros y Hy; apply H; now right).
  destruct (f x) eqn:Ef.
  - rewrite (H x (or_introl eq_refl) Ef). now constructor.
  - destruct (g x); [now constructor | exact IH'].
Qed.

(** X12.  A longer query narrows the search: when the query [q1] occurs in
    the query [q2] up to the case of the letters, the results for [q2] are
    among the results for [q1], in the same order.  In particular two
    queries that differ only in the case of their letters give the same
    results. *)
Theorem longer_query_narrows_search (request1 request2 : HttpRequest) (w : World)
    (q1 q2 : string) :
  qd_get (GET request1) "q" (Some EmptyString) = Some q1 ->
  qd_get (GET request2) "q" (Some EmptyString) = Some q2 ->
  contains_ignoring_case q2 q1 ->
  exists rs1 ps1 rs2 ps2,
    Handler.get_response "/search/" request1 w =
      (Handler.response
         (render "search_results.html"
            [("resources", VResources rs1);
             ("forum_posts", VForumPosts ps1);
             ("query", VStr q1)]), w)
    /\ Handler.get_response "/search/" request2 w =
      (Handler.response
         (render "search_results.html"
            [("resources", VResources rs2);
             ("forum_posts", VForumPosts ps2);
             ("query", VStr q2)]), w)
    /\ sublist rs2 rs1
    /\ sublist ps2 ps1
    /\ (contains_ignoring_case q1 q2 -> rs1 = rs2 /\ ps1 = ps2).
Proof.
  intros H1 H2 H21. rewrite !search_served, H1, H2. cbn [from_option]. unfold id.
  eexists _, _, _, _. split; [reflexivity|]. split; [reflexivity|].
  assert (Hnarrow : forall value a b,
             contains_ignoring_case a b ->
             Text.icontains value a = true -> Text.icontains value b = true).
  { intros value a b Hab Ha. apply icontains_spec.
    apply icontains_spec in Ha. exact (contains_ignoring_case_trans _ _ _ Ha Hab). }
  split; [apply filter_sublist_impl; intros x _; now apply Hnarrow|].
  split; [apply filter_sublist_impl; intros x _; now apply Hnarrow|].
  intros H12. split; apply filter_ext; intros x.
  - destruct (Text.icontains (resource_title x) q1) eqn:E1,
             (Text.icontains (resource_title x) q2) eqn:E2; try reflexivity.
    + apply (Hnarrow _ _ _ H12) in E1. congruence.
    + apply (Hnarrow _ _ _ H21) in E2. congruence.
  - destruct (Text.icontains (post_title x) q1) eqn:E1,
             (Text.icontains (post_title x) q2) eqn:E2; try reflexivity.
    + apply (Hnarrow _ _ _ H12) in E1. congruence.
    + apply (Hnarrow _ _ _ H21) in E2. congruence.
Qed.

Lemma longer_query_narrows_search_witness :
  qd_get (GET (mkRequest "GET" [("q", "GUIDE")] [])) "q" (Some EmptyString) = Some "GUIDE"
  /\ qd_get (GET (mkRequest "GET" [("q", "nutrition guide")] [])) "q" (Some EmptyString)
     = Some "nutrition guide"
  /\ exists rs1 ps1 rs2 ps2,
       Handler.get_response "/search/" (mkRequest "GET" [("q", "GUIDE")] [])
         (sample_world Anonymous) =
         (Handler.response
            (render "search_results.html"
               [("resources", VResources rs1);
                ("forum_posts", VForumPosts ps1);
                ("query", VStr "GUIDE")]), sample_world Anonymous)
       /\ Handler.get_response "/search/"
            (mkRequest "GET" [("q", "nutrition guide")] []) (sample_world Anonymous) =
         (Handler.response
            (render "search_results.html"
               [("resources", VResources rs2);
                ("forum_posts", VForumPosts ps2);
                ("query", VStr "nutrition guide")]), sample_world Anonymous)
       /\ sublist rs2 rs1.
Proof.
  split; [reflexivity|]. split; [reflexivity|].
  destruct (longer_query_narrows_search
              (mkRequest "GET" [("q", "GUIDE")] [])
              (mkRequest "GET" [("q", "nutrition guide")] [])
              (sample_world Anonymous) "GUIDE" "nutrition guide" eq_refl eq_refl)
    as (rs1 & ps1 & rs2 & ps2 & Ha & Hb & Hrs & _).
  - apply icontains_spec. reflexivity.
  - exists rs1, ps1, rs2, ps2. auto.
Defined.

(** ** The handlers that answer *)


